(** * QKart cart logic: [src/components/Cart.js]

    A shallow embedding of the three exported pure-data functions of the
    cart component,

      - [generateCartItemsFrom]  (the spec's [assemble]),
      - [getTotalCartValue]      (the spec's [totalValue]),
      - [getTotalItems]          (the spec's [totalCount]),

    together with the part of JavaScript they run on: dynamically typed
    arguments, [TypeError]s, IEEE-754 binary64 numbers and the console;
    and of the components [ItemQuantity] and [Cart] of the same file and
    [Header] of [src/components/Header.js], as functions from props to the
    tree of React elements they return.

    The spec renames the record fields of the source: [_id] is its [id],
    [qty] its [quantity] and [image] its [imageUrl].  The definitions
    below keep the names of the source. *)

From Stdlib Require Import List String PrimFloat.
From Stdlib Require Import Permutation Lia.
Import ListNotations.

Set Implicit Arguments.

(** ** Numbers

    A JavaScript number is a binary64 float; [+] and [*] round to
    nearest-even, [===] is the IEEE comparison ([NaN] differs from itself,
    the two zeros are equal). *)

Definition number : Type := float.

Bind Scope float_scope with number.

Definition isNaN (x : number) : bool := negb (PrimFloat.eqb x x).

(** ** Records of the data model (the JSDoc typedefs of Cart.js) *)

Module Product.
Record t : Type := mk
  { name : string;
    category : string;
    cost : number;
    rating : number;
    image : string;
    _id : string }.
End Product.

(** An element of [cartData]: [{ productId: String, qty: Number }]. *)
Module CartEntry.
Record t : Type := mk
  { productId : string;
    qty : number }.
End CartEntry.

(** The object literal [cartItemData], fields in the order of the source. *)
Module CartItem.
Record t : Type := mk
  { name : string;
    qty : number;
    category : string;
    cost : number;
    rating : number;
    image : string;
    productId : string }.
End CartItem.

(** ** Values

    What a caller can pass where an array of [A] is expected: [undefined],
    [null], a primitive, a plain data object (its own properties hold
    values, never functions), or an array of [A]. *)

#[local] Unset Elimination Schemes.

Inductive value (A : Type) : Type :=
| Undefined
| Null
| Boolean (b : bool)
| Number (x : number)
| Str (s : string)
| Obj (props : list (string * value A))
| Arr (elems : list A).

#[local] Set Elimination Schemes.

Arguments Undefined {A}.
Arguments Null {A}.
Arguments Boolean {A} b.
Arguments Number {A} x.
Arguments Str {A} s.
Arguments Obj {A} props.
Arguments Arr {A} elems.

(** ToBoolean. *)
Definition truthy {A} (v : value A) : bool :=
  match v with
  | Undefined | Null => false
  | Boolean b => b
  | Number x => negb (PrimFloat.eqb x 0 || isNaN x)
  | Str s => negb (String.eqb s "")
  | Obj _ | Arr _ => true
  end.

(** [Array.isArray]. *)
Definition isArray {A} (v : value A) : bool :=
  match v with
  | Arr _ => true
  | _ => false
  end.

(** An own property of a plain object; the first binding of a key wins. *)
Fixpoint own_property {A} (key : string) (props : list (string * value A))
  : option (value A) :=
  match props with
  | [] => None
  | (k, v) :: rest => if String.eqb k key then Some v else own_property key rest
  end.

(** ** Effects: exceptions and the console *)

Inductive error : Type :=
| TypeError.

Inductive result (A : Type) : Type :=
| Ok (a : A)
| Throw (e : error).

Arguments Ok {A} a.
Arguments Throw {A} e.

(** The lines handed to [console.error], oldest first. *)
Definition console : Type := list string.

Definition M (A : Type) : Type := console -> console * result A.

Definition ret {A} (a : A) : M A := fun c => (c, Ok a).

Definition throw {A} (e : error) : M A := fun c => (c, Throw e).

Definition bind {A B} (m : M A) (k : A -> M B) : M B :=
  fun c =>
    match m c with
    | (c', Ok a) => k a c'
    | (c', Throw e) => (c', Throw e)
    end.

Notation "x <- m ;; k" := (bind m (fun x => k))
  (at level 61, m at next level, right associativity).
Notation "m ;;; k" := (bind m (fun _ => k))
  (at level 61, right associativity).

Definition console_error (line : string) : M unit :=
  fun c => (c ++ [line], Ok tt).

(** [a || b] where [b] is only evaluated when [a] is false. *)
Definition orelse (a : bool) (b : M bool) : M bool :=
  if a then ret true else b.

(** ** The Array.prototype members the cart uses *)

(** [v.length === 0].  Reading a property of [undefined] or [null] throws;
    a number or a boolean has no [length]; a string has one. *)
Definition length_is_zero {A} (v : value A) : M bool :=
  match v with
  | Undefined | Null => throw TypeError
  | Arr elems => ret (Nat.eqb (List.length elems) 0)
  | Str s => ret (String.eqb s "")
  | Boolean _ | Number _ => ret false
  | Obj props =>
      match own_property "length" props with
      | Some (Number x) => ret (PrimFloat.eqb x 0)
      | _ => ret false
      end
  end.

(** [!v.length]. *)
Definition not_length {A} (v : value A) : M bool :=
  match v with
  | Undefined | Null => throw TypeError
  | Arr elems => ret (Nat.eqb (List.length elems) 0)
  | Str s => ret (String.eqb s "")
  | Boolean _ | Number _ => ret true
  | Obj props =>
      match own_property "length" props with
      | Some w => ret (negb (truthy w))
      | None => ret true
      end
  end.

Fixpoint mapM {A B} (f : A -> M B) (l : list A) : M (list B) :=
  match l with
  | [] => ret []
  | x :: rest => y <- f x ;; ys <- mapM f rest ;; ret (y :: ys)
  end.

(** [v.map(f)]: only an array has a callable [map]. *)
Definition array_map {A B} (v : value A) (f : A -> M B) : M (list B) :=
  match v with
  | Arr elems => mapM f elems
  | _ => throw TypeError
  end.

(** [v.find(p)]; [None] stands for [undefined]. *)
Definition array_find {A} (v : value A) (p : A -> bool) : M (option A) :=
  match v with
  | Arr elems => ret (List.find p elems)
  | _ => throw TypeError
  end.

(** [v.reduce(f, init)]. *)
Definition array_reduce {A B} (v : value A) (f : B -> A -> B) (init : B) : M B :=
  match v with
  | Arr elems => ret (List.fold_left f elems init)
  | _ => throw TypeError
  end.

(** [l.filter(Boolean)] on an array of objects and [null]s ([None]). *)
Fixpoint filter_Boolean {A} (l : list (option A)) : list A :=
  match l with
  | [] => []
  | Some a :: rest => a :: filter_Boolean rest
  | None :: rest => filter_Boolean rest
  end.

(** A default parameter [v = d] takes [d] for [undefined] only. *)
Definition default_param {A} (v d : value A) : value A :=
  match v with
  | Undefined => d
  | _ => v
  end.

(** ** The cart functions *)

Definition not_found_message (id : string) : string :=
  ("Product with ID " ++ id ++ " not found.")%string.

(** Lines 77-85. *)
Definition cartItemData (product : Product.t) (cartItem : CartEntry.t) : CartItem.t :=
  {| CartItem.name := Product.name product;
     CartItem.qty := CartEntry.qty cartItem;
     CartItem.category := Product.category product;
     CartItem.cost := Product.cost product;
     CartItem.rating := Product.rating product;
     CartItem.image := Product.image product;
     CartItem.productId := Product._id product |}.

(** The callback of [productsData.find], line 67. *)
Definition matches (cartItem : CartEntry.t) (product : Product.t) : bool :=
  String.eqb (Product._id product) (CartEntry.productId cartItem).

(** The callback of [cartData.map], lines 65-88. *)
Definition cartItem_callback (productsData : value Product.t)
  (cartItem : CartEntry.t) : M (option CartItem.t) :=
  product <- array_find productsData (matches cartItem) ;;
  match product with
  | None =>
      console_error (not_found_message (CartEntry.productId cartItem)) ;;;
      ret None
  | Some product => ret (Some (cartItemData product cartItem))
  end.

(** Lines 54-92. *)
Definition generateCartItemsFrom (cartData : value CartEntry.t)
  (productsData : value Product.t) : M (list CartItem.t) :=
  guard <- orelse (negb (truthy productsData))
             (orelse (negb (isArray productsData))
                (length_is_zero productsData)) ;;
  if guard then ret []
  else
    cartItems <- array_map cartData (cartItem_callback productsData) ;;
    ret (filter_Boolean cartItems).

(** Lines 104-106. *)
Definition getTotalCartValue (items : value CartItem.t) : M number :=
  let items := default_param items (Arr []) in
  array_reduce items
    (fun total item => total + CartItem.cost item * CartItem.qty item)%float
    0%float.

(** Lines 108-112, over the reduction primitive [reduce] of the runtime. *)
Definition getTotalItems_with
  (reduce : value CartItem.t -> (number -> CartItem.t -> number) -> number -> M number)
  (items : value CartItem.t) : M number :=
  let items := default_param items (Arr []) in
  empty <- not_length items ;;
  if empty then ret 0%float
  else
    total <- reduce items (fun total item => total + CartItem.qty item)%float 0%float ;;
    ret total.

Definition getTotalItems (items : value CartItem.t) : M number :=
  getTotalItems_with (@array_reduce CartItem.t number) items.

(** ** Reference definitions, written from the spec's words *)

(** "Sum of [f] over all items", accumulated from the first item to the
    last, starting from 0: the sum of a sequence extended by one item is the
    sum of the sequence plus that item's term. *)
Fixpoint sum_backwards (f : CartItem.t -> number) (reversed : list CartItem.t) : number :=
  match reversed with
  | [] => 0%float
  | item :: earlier => (sum_backwards f earlier + f item)%float
  end.

Definition sum_over (f : CartItem.t -> number) (items : list CartItem.t) : number :=
  sum_backwards f (rev items).

Definition line_value (item : CartItem.t) : number :=
  (CartItem.cost item * CartItem.qty item)%float.

(** "A linear lookup in the catalog by exact id equality": the first
    product, in catalog order, whose id is the one asked for. *)
Fixpoint lookup (id : string) (catalog : list Product.t) : option Product.t :=
  match catalog with
  | [] => None
  | product :: rest =>
      if String.eqb (Product._id product) id then Some product
      else lookup id rest
  end.

(** "Found: emit a line item merging catalog fields with the entry's
    quantity.  Not found: omit that entry from the result." *)
Fixpoint assemble_items (entries : list CartEntry.t) (catalog : list Product.t)
  : list CartItem.t :=
  match entries with
  | [] => []
  | entry :: rest =>
      match lookup (CartEntry.productId entry) catalog with
      | Some product =>
          CartItem.mk (Product.name product) (CartEntry.qty entry)
            (Product.category product) (Product.cost product)
            (Product.rating product) (Product.image product)
            (Product._id product)
          :: assemble_items rest catalog
      | None => assemble_items rest catalog
      end
  end.

(** "Not found: emit a diagnostic (string naming the missing id) to the
    logging collaborator." *)
Fixpoint assemble_diagnostics (entries : list CartEntry.t) (catalog : list Product.t)
  : list string :=
  match entries with
  | [] => []
  | entry :: rest =>
      match lookup (CartEntry.productId entry) catalog with
      | Some _ => assemble_diagnostics rest catalog
      | None =>
          not_found_message (CartEntry.productId entry)
          :: assemble_diagnostics rest catalog
      end
  end.

(** Whether some product of the catalog has the id the entry refers to. *)
Definition has_match (catalog : list Product.t) (entry : CartEntry.t) : bool :=
  existsb (fun product => String.eqb (Product._id product) (CartEntry.productId entry))
    catalog.

(** An operation returns a number without raising and without writing to
    the console, the same number whatever the console holds. *)
Definition returns_number (f : value CartItem.t -> M number) (v : value CartItem.t) : Prop :=
  exists n : number, forall c : console, f v c = (c, Ok n).

(** A line item carrying only the fields the totals read. *)
Definition line (cost qty : number) : CartItem.t :=
  CartItem.mk "" qty "" cost 0%float "" "".

(** ** Sample data: the catalog and cart of the spec's examples *)

Definition product_A : Product.t :=
  Product.mk "X" "Fashion" 10 4 "https://qkart.example/x.png" "A".

(** A second catalog row carrying the id of [product_A]. *)
Definition product_A_again : Product.t :=
  Product.mk "Y" "Electronics" 99 1 "https://qkart.example/y.png" "A".

Definition entry_A : CartEntry.t := CartEntry.mk "A" 2.

Definition entry_Z : CartEntry.t := CartEntry.mk "Z" 1.

Definition product_B : Product.t :=
  Product.mk "W" "Home" 2.5 5 "https://qkart.example/w.png" "B".

Definition entry_B : CartEntry.t := CartEntry.mk "B" 4.

Definition item_A : CartItem.t :=
  CartItem.mk "X" 2 "Fashion" 10 4 "https://qkart.example/x.png" "A".

(** ** The browser around the components

    What an event handler of the two components can touch: the local
    storage (read with [getItem], emptied with [clear]) and the calls it
    makes to collaborators, recorded in the order they are made. *)

Definition storage : Type := list (string * string).

(** [localStorage.getItem(key)]: the stored string, or [null] ([None]). *)
Fixpoint getItem (key : string) (s : storage) : option string :=
  match s with
  | [] => None
  | (k, v) :: rest => if String.eqb k key then Some v else getItem key rest
  end.

Inductive call : Type :=
| HistoryPush (path : string)
| LocationReload (arg : string).

Record world : Type := mkWorld
  { localStorage : storage;
    calls : list call }.

(** An event handler: what a click does to the browser. *)
Definition handler : Type := world -> world.

(** [history.push(path)]. *)
Definition history_push (path : string) : handler :=
  fun w => {| localStorage := localStorage w;
              calls := calls w ++ [HistoryPush path] |}.

(** ToBoolean of what [getItem] returns: [null] and the empty string are
    falsy. *)
Definition truthy_item (item : option string) : bool :=
  match item with
  | Some s => negb (String.eqb s "")
  | None => false
  end.

(** ** React elements

    The tree a component returns, with the components of this repository
    ([ItemQuantity]) expanded and those of the libraries (Box, Button, ...)
    left as elements named after them.  A child is an element, a fragment,
    an array of children, a string, a number, a boolean (what [a && b]
    leaves when [a] is false) or nothing ([null], [undefined]). *)

#[local] Unset Elimination Schemes.

Inductive attr : Type :=
| AStr (s : string)
| ANum (x : number)
| ANull
| AObj (fields : list (string * attr))
| ANode (n : node)
| AHandler (h : handler)
with node : Type :=
| Element (type : string) (key : option string)
    (props : list (string * attr)) (children : list node)
| Fragment (children : list node)
| NodeArray (elems : list node)
| Text (s : string)
| NumberNode (x : number)
| BoolNode (b : bool)
| NullNode.

#[local] Set Elimination Schemes.

(** A value read from the local storage, as a prop and as a child. *)
Definition attr_of_item (item : option string) : attr :=
  match item with
  | Some s => AStr s
  | None => ANull
  end.

Definition node_of_item (item : option string) : node :=
  match item with
  | Some s => Text s
  | None => NullNode
  end.

(** Every event handler carried by a tree, in document order. *)
Fixpoint node_handlers (n : node) : list handler :=
  match n with
  | Element _ _ props children =>
      flat_map (fun p => attr_handlers (snd p)) props
      ++ flat_map node_handlers children
  | Fragment children => flat_map node_handlers children
  | NodeArray elems => flat_map node_handlers elems
  | Text _ | NumberNode _ | BoolNode _ | NullNode => []
  end
with attr_handlers (a : attr) : list handler :=
  match a with
  | AHandler h => [h]
  | ANode n => node_handlers n
  | AObj fields => flat_map (fun p => attr_handlers (snd p)) fields
  | AStr _ | ANum _ | ANull => []
  end.

(** ** The components of Cart.js *)

#[local] Open Scope string_scope.

(** Lines 128-145. *)
Definition ItemQuantity (value : number) (isReadOnly : bool)
  (handleAdd handleDelete : handler) : node :=
  if isReadOnly then
    Element "Box" None [] [Text "Qty: "; NumberNode value]
  else
    Element "Stack" None
      [("direction", AStr "row"); ("alignItems", AStr "center")]
      [ Element "IconButton" None
          [("size", AStr "small"); ("color", AStr "primary");
           ("onClick", AHandler handleDelete)]
          [Element "RemoveOutlined" None [] []];
        Element "Box" None
          [("padding", AStr "0.5rem"); ("data-testid", AStr "item-qty")]
          [NumberNode value];
        Element "IconButton" None
          [("size", AStr "small"); ("color", AStr "primary");
           ("onClick", AHandler handleAdd)]
          [Element "AddOutlined" None [] []] ].

(** The [handleQuantity] prop of [Cart]: a function of the caller, taking
    the token, two strings, a product id and a quantity. *)
Definition quantity_handler : Type :=
  option string -> string -> string -> string -> number -> handler.

(** The callback of [items.map] in [Cart], lines 179-232. *)
Definition Cart_row (handleQuantity : quantity_handler) (isReadOnly : bool)
  (item : CartItem.t) : node :=
  Element "Box" (Some (CartItem.productId item))
    [("display", AStr "flex"); ("alignItems", AStr "flex-start");
     ("padding", AStr "1rem")]
    [ Element "Box" None [("className", AStr "image-container")]
        [ Element "img" None
            [("src", AStr (CartItem.image item)); ("alt", AStr (CartItem.name item));
             ("width", AStr "100%"); ("height", AStr "100%")]
            [] ];
      Element "Box" None
        [("display", AStr "flex"); ("flexDirection", AStr "column");
         ("justifyContent", AStr "space-between"); ("height", AStr "6rem");
         ("paddingX", AStr "1rem")]
        [ Element "div" None [] [Text (CartItem.name item)];
          Element "Box" None
            [("display", AStr "flex"); ("justifyContent", AStr "space-between");
             ("alignItems", AStr "center")]
            [ ItemQuantity (CartItem.qty item) isReadOnly
                (fun w =>
                   handleQuantity (getItem "token" (localStorage w)) "" ""
                     (CartItem.productId item) (CartItem.qty item + 1)%float w)
                (fun w =>
                   handleQuantity (getItem "token" (localStorage w)) "" ""
                     (CartItem.productId item) (CartItem.qty item - 1)%float w);
              Element "Box" None
                [("padding", AStr "0.5rem"); ("fontWeight", AStr "700")]
                [Text "$"; NumberNode (CartItem.cost item)] ] ] ].

(** Lines 166-173. *)
Definition Cart_empty : node :=
  Element "Box" None [("className", AStr "cart empty")]
    [ Element "ShoppingCartOutlined" None [("className", AStr "empty-cart-icon")] [];
      Element "Box" None [("color", AStr "#aaa"); ("textAlign", AStr "center")]
        [Text "Cart is empty. Add more items to the cart to checkout."] ].

(** Lines 254-264. *)
Definition Cart_footer : node :=
  Element "Box" None
    [("display", AStr "flex"); ("justifyContent", AStr "flex-end");
     ("className", AStr "cart-footer")]
    [ Element "Button" None
        [("color", AStr "primary"); ("variant", AStr "contained");
         ("startIcon", ANode (Element "ShoppingCart" None [] []));
         ("className", AStr "checkout-btn");
         ("onClick", AHandler (history_push "/checkout"))]
        [Text "Checkout"] ].

(** Lines 266-284. *)
Definition Cart_details (products subtotal total : number) : node :=
  Element "Box" None [("classname", AStr "cart"); ("padding", AStr "1rem")]
    [ Element "h2" None [] [Text "Order Details"];
      Element "Box" None [("className", AStr "cart-row")]
        [ Element "p" None [] [Text "products"];
          Element "p" None [] [NumberNode products] ];
      Element "Box" None [("className", AStr "cart-row")]
        [ Element "p" None [] [Text "Subtotal"];
          Element "p" None [] [Text "$"; NumberNode subtotal] ];
      Element "Box" None [("className", AStr "cart-row")]
        [ Element "p" None [] [Text "Shipping Charges"];
          Element "p" None [] [Text "$0"] ];
      Element "Box" None [("className", AStr "cart-row")]
        [ Element "p" None [] [Text "Total"];
          Element "p" None [] [Text "$"; NumberNode total] ] ].

(** Lines 162-287.  [products] is accepted and not used. *)
Definition Cart (products : value Product.t) (items : value CartItem.t)
  (handleQuantity : quantity_handler) (hasCheckoutButton isReadOnly : bool)
  : M node :=
  let items := default_param items (Arr []) in
  empty <- not_length items ;;
  if empty then ret Cart_empty
  else
    rows <- array_map items
              (fun item => ret (Cart_row handleQuantity isReadOnly item)) ;;
    orderTotal <- getTotalCartValue items ;;
    details <-
      (if isReadOnly then
         products <- getTotalItems items ;;
         subtotal <- getTotalCartValue items ;;
         total <- getTotalItems items ;;
         ret (Cart_details products subtotal total)
       else ret (BoolNode false)) ;;
    ret (Fragment
           [ Element "Box" None [("className", AStr "cart")]
               [ NodeArray rows;
                 Element "Box" None
                   [("padding", AStr "1rem"); ("display", AStr "flex");
                    ("justifyContent", AStr "space-between");
                    ("alignItems", AStr "center")]
                   [ Element "Box" None
                       [("color", AStr "#3C3C3C"); ("alignSelf", AStr "center")]
                       [Text "Order total"];
                     Element "Box" None
                       [("color", AStr "#3C3C3C"); ("fontWeight", AStr "700");
                        ("fontSize", AStr "1.5rem"); ("alignSelf", AStr "center");
                        ("data-testid", AStr "cart-total")]
                       [Text "$"; NumberNode orderTotal] ];
                 if hasCheckoutButton then Cart_footer else BoolNode false ];
             details ]).

(** ** The component of Header.js *)

(** The Logout button, lines 52-57. *)
Definition logout : handler :=
  fun w => {| localStorage := [];
              calls := calls w ++ [LocationReload "/"] |}.

Definition Header_title : node :=
  Element "Box" None [("className", AStr "header-title")]
    [ Element "img" None
        [("src", AStr "logo_light.svg"); ("alt", AStr "QKart-icon")] [] ].

(** Lines 8-88; the local storage is read while rendering. *)
Definition Header (children : node) (hasHiddenAuthButtons : bool)
  (store : storage) : node :=
  if hasHiddenAuthButtons then
    Element "Box" None [("className", AStr "header")]
      [ Header_title;
        Element "Button" None
          [("className", AStr "explore-button");
           ("startIcon", ANode (Element "ArrowBackIcon" None [] []));
           ("variant", AStr "text");
           ("onClick", AHandler (history_push "/"))]
          [Text "Back to explore"] ]%string
  else
    Element "Box" None [("className", AStr "header")]
      [ Header_title;
        children;
        Element "Box" None []
          [ if truthy_item (getItem "token" store) then
              Element "Stack" None
                [("flexDirection", AStr "row"); ("spacing", ANum 1);
                 ("alignItems", AStr "center")]
                [ Element "Avatar" None
                    [("src", AStr "avatar.png");
                     ("alt", attr_of_item (getItem "username" store))]
                    [];
                  Element "p" None
                    [("style",
                      AObj [("marginLeft", AStr "5px"); ("marginRight", AStr "5px")])]
                    [node_of_item (getItem "username" store)];
                  Element "Button" None
                    [("variant", AStr "contained"); ("onClick", AHandler logout)]
                    [Text "Logout"] ]
            else
              Fragment
                [ Element "Button" None
                    [("className", AStr "explore-button");
                     ("sx", AObj [("mr", ANum 1)]);
                     ("variant", AStr "text");
                     ("onClick", AHandler (history_push "/login"))]
                    [Text "Login"];
                  Element "Button" None
                    [("variant", AStr "contained");
                     ("onClick", AHandler (history_push "/register"))]
                    [Text "Register"] ] ] ].

#[local] Close Scope string_scope.

(** * Theorems *)

Section Reduce.

Variable f : CartItem.t -> number.

Lemma sum_over_snoc (items : list CartItem.t) (item : CartItem.t) :
  sum_over f (items ++ [item]) = (sum_over f items + f item)%float.
Proof.
  unfold sum_over. rewrite rev_app_distr. reflexivity.
Qed.

Lemma fold_left_sum_from (items : list CartItem.t) :
  forall earlier : list CartItem.t,
    fold_left (fun total item => (total + f item)%float) items
      (sum_over f earlier)
    = sum_over f (earlier ++ items).
Proof.
  induction items as [| item items IH]; intros earlier; simpl.
  - now rewrite app_nil_r.
  - rewrite <- sum_over_snoc, IH, <- app_assoc. reflexivity.
Qed.

Lemma fold_left_sum (items : list CartItem.t) :
  fold_left (fun total item => (total + f item)%float) items 0%float
  = sum_over f items.
Proof.
  exact (fold_left_sum_from items []).
Qed.

End Reduce.

Lemma getTotalCartValue_array (items : list CartItem.t) (c : console) :
  getTotalCartValue (Arr items) c = (c, Ok (sum_over line_value items)).
Proof.
  unfold getTotalCartValue, array_reduce, ret; simpl.
  now rewrite (fold_left_sum line_value).
Qed.

(** C2. [getTotalCartValue] returns the sum of [cost * qty] over all items,
    accumulated in sequence order from 0, whatever the quantities are
    (negative and fractional ones included, nothing is validated); it
    returns 0 for the empty sequence and for [undefined]; and on the two
    items (5,3), (2,1) it returns 17. *)
Theorem C2_getTotalCartValue_sum :
  (forall (items : list CartItem.t) (c : console),
      getTotalCartValue (Arr items) c = (c, Ok (sum_over line_value items)))
  /\ (forall (items : list CartItem.t) (item : CartItem.t),
        sum_over line_value (items ++ [item])
        = (sum_over line_value items + CartItem.cost item * CartItem.qty item)%float)
  /\ (forall c : console, getTotalCartValue (Arr []) c = (c, Ok 0%float))
  /\ (forall c : console, getTotalCartValue Undefined c = (c, Ok 0%float))
  /\ (forall c : console,
        getTotalCartValue (Arr [line 5 3; line 2 1]) c = (c, Ok 17%float))
  /\ (forall c : console,
        getTotalCartValue (Arr [line 5 (-2); line 3 0.5]) c = (c, Ok (-8.5)%float)).
Proof.
  split; [exact getTotalCartValue_array |].
  split; [exact (sum_over_snoc line_value) |].
  repeat (split; [reflexivity |]).
  reflexivity.
Qed.

(** ** The assembler on arrays *)

Lemma find_matches_lookup (entry : CartEntry.t) (catalog : list Product.t) :
  List.find (matches entry) catalog = lookup (CartEntry.productId entry) catalog.
Proof.
  induction catalog as [| product rest IH]; simpl.
  - reflexivity.
  - unfold matches at 1.
    destruct (String.eqb (Product._id product) (CartEntry.productId entry)).
    + reflexivity.
    + exact IH.
Qed.

Lemma lookup_some (id : string) (catalog : list Product.t) (product : Product.t) :
  lookup id catalog = Some product ->
  In product catalog /\ Product._id product = id.
Proof.
  induction catalog as [| q rest IH]; simpl.
  - discriminate.
  - destruct (String.eqb (Product._id q) id) eqn:E.
    + intros [= <-]. apply String.eqb_eq in E. auto.
    + intros H. destruct (IH H). auto.
Qed.

Lemma lookup_none (id : string) (catalog : list Product.t) :
  (forall product, In product catalog -> Product._id product <> id) ->
  lookup id catalog = None.
Proof.
  induction catalog as [| q rest IH]; simpl; intros H.
  - reflexivity.
  - destruct (String.eqb (Product._id q) id) eqn:E.
    + apply String.eqb_eq in E. exfalso. apply (H q); auto.
    + apply IH. intros product Hin. apply H. auto.
Qed.

Lemma lookup_first (id : string) (before after : list Product.t) (product : Product.t) :
  Forall (fun q => Product._id q <> id) before ->
  Product._id product = id ->
  lookup id (before ++ product :: after) = Some product.
Proof.
  intros Hbefore Hid.
  induction Hbefore as [| q rest Hq _ IH]; simpl.
  - apply String.eqb_eq in Hid. now rewrite Hid.
  - apply String.eqb_neq in Hq. now rewrite Hq.
Qed.

Lemma cartItem_callback_run (catalog : list Product.t) (entry : CartEntry.t) (c : console) :
  cartItem_callback (Arr catalog) entry c
  = match lookup (CartEntry.productId entry) catalog with
    | Some product => (c, Ok (Some (cartItemData product entry)))
    | None => (c ++ [not_found_message (CartEntry.productId entry)], Ok None)
    end.
Proof.
  unfold cartItem_callback, array_find, bind, ret.
  rewrite find_matches_lookup.
  destruct (lookup (CartEntry.productId entry) catalog); reflexivity.
Qed.

Lemma mapM_callback_run (catalog : list Product.t) (entries : list CartEntry.t) :
  forall c : console,
  exists results : list (option CartItem.t),
    mapM (cartItem_callback (Arr catalog)) entries c
    = (c ++ assemble_diagnostics entries catalog, Ok results)
    /\ filter_Boolean results = assemble_items entries catalog.
Proof.
  induction entries as [| entry rest IH]; intros c; simpl.
  - exists []. unfold ret. now rewrite app_nil_r.
  - unfold bind at 1. rewrite cartItem_callback_run.
    destruct (lookup (CartEntry.productId entry) catalog) as [product |].
    + destruct (IH c) as [results [Hrun Hfilter]].
      exists (Some (cartItemData product entry) :: results).
      unfold bind, ret. rewrite Hrun. simpl. now rewrite Hfilter.
    + destruct (IH (c ++ [not_found_message (CartEntry.productId entry)]))
        as [results [Hrun Hfilter]].
      exists (None :: results).
      unfold bind, ret. rewrite Hrun. simpl. now rewrite <- app_assoc.
Qed.

Lemma guard_nonempty_array (catalog : list Product.t) (c : console) :
  catalog <> [] ->
  orelse (negb (truthy (Arr catalog)))
    (orelse (negb (isArray (Arr catalog))) (length_is_zero (Arr catalog))) c
  = (c, Ok false).
Proof.
  destruct catalog; [congruence | reflexivity].
Qed.

Lemma guard_no_catalog (productsData : value Product.t) (c : console) :
  productsData = Arr [] \/ isArray productsData = false ->
  orelse (negb (truthy productsData))
    (orelse (negb (isArray productsData)) (length_is_zero productsData)) c
  = (c, Ok true).
Proof.
  intros [-> | Hnot]; [reflexivity |].
  destruct productsData as [| | b | x | s | props | elems]; simpl in *;
    try reflexivity; try discriminate.
  - destruct b; reflexivity.
  - destruct (negb _); reflexivity.
  - destruct (negb _); reflexivity.
Qed.

Lemma generateCartItemsFrom_arrays
  (entries : list CartEntry.t) (catalog : list Product.t) (c : console) :
  catalog <> [] ->
  generateCartItemsFrom (Arr entries) (Arr catalog) c
  = (c ++ assemble_diagnostics entries catalog, Ok (assemble_items entries catalog)).
Proof.
  intros Hne. unfold generateCartItemsFrom.
  unfold bind at 1. rewrite (guard_nonempty_array c Hne).
  unfold array_map, bind, ret.
  destruct (mapM_callback_run catalog entries c) as [results [-> <-]].
  reflexivity.
Qed.

Lemma generateCartItemsFrom_no_catalog
  (cartData : value CartEntry.t) (productsData : value Product.t) (c : console) :
  productsData = Arr [] \/ isArray productsData = false ->
  generateCartItemsFrom cartData productsData c = (c, Ok []).
Proof.
  intros H. unfold generateCartItemsFrom.
  unfold bind at 1. now rewrite (guard_no_catalog c H).
Qed.

Lemma generateCartItemsFrom_not_array
  (cartData : value CartEntry.t) (catalog : list Product.t) (c : console) :
  catalog <> [] ->
  isArray cartData = false ->
  generateCartItemsFrom cartData (Arr catalog) c = (c, Throw TypeError).
Proof.
  intros Hne Hnot. unfold generateCartItemsFrom.
  unfold bind at 1. rewrite (guard_nonempty_array c Hne).
  destruct cartData; try reflexivity; discriminate.
Qed.

Lemma assemble_unknown_ids (entries : list CartEntry.t) (catalog : list Product.t) :
  (forall entry, In entry entries ->
     forall product, In product catalog ->
       Product._id product <> CartEntry.productId entry) ->
  assemble_items entries catalog = []
  /\ assemble_diagnostics entries catalog
     = map (fun entry => not_found_message (CartEntry.productId entry)) entries.
Proof.
  induction entries as [| entry rest IH]; simpl; intros H.
  - auto.
  - rewrite lookup_none by (intros product Hin; apply (H entry); auto).
    destruct IH as [-> ->]; [| auto].
    intros e He. apply H. auto.
Qed.

Lemma string_length_append (s t : string) :
  String.length (s ++ t) = String.length s + String.length t.
Proof.
  induction s as [| a s IH]; simpl; [reflexivity | now rewrite IH].
Qed.

Lemma string_append_cancel_r (t : string) :
  forall s1 s2 : string, (s1 ++ t)%string = (s2 ++ t)%string -> s1 = s2.
Proof.
  induction s1 as [| a s1 IH]; intros [| b s2] H; simpl in H.
  - reflexivity.
  - apply (f_equal String.length) in H. simpl in H.
    rewrite string_length_append in H. lia.
  - apply (f_equal String.length) in H. simpl in H.
    rewrite string_length_append in H. lia.
  - injection H as -> H. f_equal. now apply IH.
Qed.

(** The diagnostic names the id: two ids never share a message. *)
Lemma not_found_message_names_id (id1 id2 : string) :
  not_found_message id1 = not_found_message id2 -> id1 = id2.
Proof.
  unfold not_found_message. simpl. intros H.
  injection H as H. now apply string_append_cancel_r in H.
Qed.

Lemma unmatched_lookup (catalog : list Product.t) (entry : CartEntry.t) :
  negb (has_match catalog entry)
  = match lookup (CartEntry.productId entry) catalog with
    | Some _ => false
    | None => true
    end.
Proof.
  unfold has_match.
  induction catalog as [| product rest IH]; simpl.
  - reflexivity.
  - destruct (String.eqb (Product._id product) (CartEntry.productId entry));
      [reflexivity | exact IH].
Qed.

Lemma assemble_diagnostics_text (entries : list CartEntry.t) (catalog : list Product.t) :
  assemble_diagnostics entries catalog
  = map
      (fun entry =>
         ("Product with ID " ++ CartEntry.productId entry ++ " not found.")%string)
      (filter (fun entry => negb (has_match catalog entry)) entries).
Proof.
  induction entries as [| entry rest IH]; simpl.
  - reflexivity.
  - rewrite unmatched_lookup.
    destruct (lookup (CartEntry.productId entry) catalog); simpl.
    + exact IH.
    + now rewrite IH.
Qed.

(** C1. On an array of cart entries and a non-empty catalog array,
    [generateCartItemsFrom] handles the entries in turn: each is looked up
    linearly in the catalog by id; a found product yields the line item
    merging its fields with the entry's quantity; a missing one appends the
    diagnostic naming the id to the console and yields no item.  The
    diagnostics are, in the order of the entries, the line
    "Product with ID <id> not found." for each entry whose id no product
    of the catalog has, and the line determines the id.  When no entry
    refers to a known id the result is empty (one diagnostic per
    entry). *)
Theorem C1_generateCartItemsFrom_per_entry
  (entries : list CartEntry.t) (catalog : list Product.t) (c : console)
  (Hcatalog : catalog <> []) :
  generateCartItemsFrom (Arr entries) (Arr catalog) c
  = (c ++ assemble_diagnostics entries catalog, Ok (assemble_items entries catalog))
  /\ generateCartItemsFrom (Arr entries) (Arr catalog) c
     = (c ++ map
               (fun entry =>
                  ("Product with ID " ++ CartEntry.productId entry
                   ++ " not found.")%string)
               (filter (fun entry => negb (has_match catalog entry)) entries),
        Ok (assemble_items entries catalog))
  /\ (forall id1 id2 : string,
        ("Product with ID " ++ id1 ++ " not found.")%string
        = ("Product with ID " ++ id2 ++ " not found.")%string ->
        id1 = id2)
  /\ ((forall entry, In entry entries ->
         forall product, In product catalog ->
           Product._id product <> CartEntry.productId entry) ->
      generateCartItemsFrom (Arr entries) (Arr catalog) c
      = (c ++ map
                (fun entry =>
                   ("Product with ID " ++ CartEntry.productId entry
                    ++ " not found.")%string)
                entries,
         Ok [])).
Proof.
  split; [now apply generateCartItemsFrom_arrays |].
  split.
  { rewrite generateCartItemsFrom_arrays by assumption.
    now rewrite assemble_diagnostics_text. }
  split; [exact not_found_message_names_id |].
  intros Hunknown.
  rewrite generateCartItemsFrom_arrays by assumption.
  destruct (assemble_unknown_ids entries catalog Hunknown) as [-> ->].
  reflexivity.
Qed.

Lemma C1_generateCartItemsFrom_per_entry_witness :
  generateCartItemsFrom (Arr [entry_A; entry_Z; entry_B]) (Arr [product_A]) []
  = (["Product with ID Z not found."%string; "Product with ID B not found."%string],
     Ok [item_A])
  /\ generateCartItemsFrom (Arr [entry_Z; entry_B]) (Arr [product_A]) []
     = (["Product with ID Z not found."%string; "Product with ID B not found."%string],
        Ok []).
Proof.
  split.
  - destruct (@C1_generateCartItemsFrom_per_entry
                [entry_A; entry_Z; entry_B] [product_A] []) as [_ [H _]].
    + discriminate.
    + exact H.
  - destruct (@C1_generateCartItemsFrom_per_entry
                [entry_Z; entry_B] [product_A] []) as [_ [_ [_ H]]].
    + discriminate.
    + apply H.
      intros entry [<- | [<- | []]] product [<- | []]; discriminate.
Defined.

(** C4. Whatever the cart-entries argument is (a non-empty array, or not an
    array at all), when the catalog argument is the empty array or is not
    an array ([undefined], [null], a primitive, a plain object),
    [generateCartItemsFrom] returns the empty array; nothing is thrown and
    nothing is logged. *)
Theorem C4_generateCartItemsFrom_no_catalog
  (cartData : value CartEntry.t) (productsData : value Product.t) (c : console)
  (Hcatalog : productsData = Arr [] \/ isArray productsData = false) :
  generateCartItemsFrom cartData productsData c = (c, Ok []).
Proof.
  unfold generateCartItemsFrom, bind.
  rewrite (guard_no_catalog c Hcatalog).
  reflexivity.
Qed.

Lemma C4_generateCartItemsFrom_no_catalog_witness :
  generateCartItemsFrom (Arr [entry_A; entry_Z]) (Arr []) [] = ([], Ok [])
  /\ generateCartItemsFrom (Arr [entry_A; entry_Z]) Undefined [] = ([], Ok [])
  /\ generateCartItemsFrom (Arr [entry_A; entry_Z]) (Str "catalog") [] = ([], Ok [])
  /\ generateCartItemsFrom Null Null [] = ([], Ok []).
Proof.
  split; [| split; [| split]].
  - apply C4_generateCartItemsFrom_no_catalog. left. reflexivity.
  - apply C4_generateCartItemsFrom_no_catalog. right. reflexivity.
  - apply C4_generateCartItemsFrom_no_catalog. right. reflexivity.
  - apply C4_generateCartItemsFrom_no_catalog. right. reflexivity.
Defined.

(** C9. The guard looks at the catalog only.  With a non-empty catalog
    array, a cart-entries argument that is not an array ([undefined],
    [null], a primitive, a plain object) makes [generateCartItemsFrom]
    throw a [TypeError] at [cartData.map]; no empty array is returned. *)
Theorem C9_generateCartItemsFrom_cartData_unguarded
  (cartData : value CartEntry.t) (catalog : list Product.t) (c : console)
  (Hcatalog : catalog <> [])
  (HcartData : isArray cartData = false) :
  generateCartItemsFrom cartData (Arr catalog) c = (c, Throw TypeError).
Proof.
  unfold generateCartItemsFrom, bind.
  rewrite (guard_nonempty_array c Hcatalog).
  destruct cartData as [| | b | x | s | props | entries];
    solve [reflexivity | discriminate HcartData].
Qed.

Lemma C9_generateCartItemsFrom_cartData_unguarded_witness :
  generateCartItemsFrom Undefined (Arr [product_A]) [] = ([], Throw TypeError)
  /\ generateCartItemsFrom Null (Arr [product_A]) [] = ([], Throw TypeError)
  /\ generateCartItemsFrom (Obj [("length"%string, Number 0)]) (Arr [product_A]) []
     = ([], Throw TypeError).
Proof.
  split; [| split].
  - apply C9_generateCartItemsFrom_cartData_unguarded; [discriminate | reflexivity].
  - apply C9_generateCartItemsFrom_cartData_unguarded; [discriminate | reflexivity].
  - apply C9_generateCartItemsFrom_cartData_unguarded; [discriminate | reflexivity].
Defined.

(** ** Shape, order and determinism of the assembled items *)

Lemma catalog_cases (productsData : value Product.t) :
  (productsData = Arr [] \/ isArray productsData = false)
  \/ (exists catalog, productsData = Arr catalog /\ catalog <> []).
Proof.
  destruct productsData as [| | b | x | s | props | elems];
    try (left; right; reflexivity).
  destruct elems as [| product rest].
  - left; left; reflexivity.
  - right. exists (product :: rest). split; [reflexivity | discriminate].
Qed.

Lemma cartData_cases (cartData : value CartEntry.t) :
  isArray cartData = false \/ exists entries, cartData = Arr entries.
Proof.
  destruct cartData; try (left; reflexivity).
  right. eexists. reflexivity.
Qed.

Lemma assemble_items_merge (entries : list CartEntry.t) (catalog : list Product.t) :
  Forall
    (fun item =>
       exists entry product,
         In entry entries /\ In product catalog
         /\ Product._id product = CartEntry.productId entry
         /\ item = cartItemData product entry)
    (assemble_items entries catalog).
Proof.
  induction entries as [| entry rest IH]; simpl.
  - constructor.
  - assert (Hrest :
      Forall
        (fun item =>
           exists e product,
             (entry = e \/ In e rest) /\ In product catalog
             /\ Product._id product = CartEntry.productId e
             /\ item = cartItemData product e)
        (assemble_items rest catalog)).
    { eapply Forall_impl; [| exact IH].
      intros item (e & product & He & Hrest). exists e, product. tauto. }
    destruct (lookup (CartEntry.productId entry) catalog) as [product |] eqn:E.
    + constructor; [| exact Hrest].
      apply lookup_some in E. destruct E as [Hin Hid].
      exists entry, product. auto.
    + exact Hrest.
Qed.

Lemma has_match_lookup (catalog : list Product.t) (entry : CartEntry.t) :
  has_match catalog entry
  = match lookup (CartEntry.productId entry) catalog with
    | Some _ => true
    | None => false
    end.
Proof.
  unfold has_match.
  induction catalog as [| product rest IH]; simpl.
  - reflexivity.
  - destruct (String.eqb (Product._id product) (CartEntry.productId entry));
      [reflexivity | exact IH].
Qed.

Lemma assemble_items_order (entries : list CartEntry.t) (catalog : list Product.t) :
  map (fun item => (CartItem.productId item, CartItem.qty item))
    (assemble_items entries catalog)
  = map (fun entry => (CartEntry.productId entry, CartEntry.qty entry))
      (filter (has_match catalog) entries).
Proof.
  induction entries as [| entry rest IH]; simpl.
  - reflexivity.
  - rewrite has_match_lookup.
    destruct (lookup (CartEntry.productId entry) catalog) as [product |] eqn:E.
    + simpl. apply lookup_some in E. destruct E as [_ ->]. now rewrite IH.
    + exact IH.
Qed.

Lemma assemble_items_app (before after : list CartEntry.t) (catalog : list Product.t) :
  assemble_items (before ++ after) catalog
  = assemble_items before catalog ++ assemble_items after catalog.
Proof.
  induction before as [| entry rest IH]; simpl.
  - reflexivity.
  - destruct (lookup (CartEntry.productId entry) catalog); simpl; now rewrite IH.
Qed.

Lemma assemble_diagnostics_app (before after : list CartEntry.t) (catalog : list Product.t) :
  assemble_diagnostics (before ++ after) catalog
  = assemble_diagnostics before catalog ++ assemble_diagnostics after catalog.
Proof.
  induction before as [| entry rest IH]; simpl.
  - reflexivity.
  - destruct (lookup (CartEntry.productId entry) catalog); simpl; now rewrite IH.
Qed.

(** The call appends its diagnostics to the console and is otherwise
    independent of it. *)
Lemma generateCartItemsFrom_run
  (cartData : value CartEntry.t) (productsData : value Product.t) :
  exists (diagnostics : list string) (outcome : result (list CartItem.t)),
    forall c : console,
      generateCartItemsFrom cartData productsData c = (c ++ diagnostics, outcome).
Proof.
  destruct (catalog_cases productsData) as [Hno | (catalog & -> & Hne)].
  - exists [], (Ok []). intros c. rewrite app_nil_r.
    now apply generateCartItemsFrom_no_catalog.
  - destruct (cartData_cases cartData) as [Hnot | (entries & ->)].
    + exists [], (Throw TypeError). intros c. rewrite app_nil_r.
      now apply generateCartItemsFrom_not_array.
    + exists (assemble_diagnostics entries catalog),
        (Ok (assemble_items entries catalog)).
      intros c. now apply generateCartItemsFrom_arrays.
Qed.

(** C5. Every line item [generateCartItemsFrom] returns is the record of
    the seven fields name, qty, category, cost, rating, image, productId in
    which qty is the quantity of an entry of the cart and the other six are
    the name, category, cost, rating, image and id of a catalog product
    whose id is that entry's product id. *)
Theorem C5_generateCartItemsFrom_item_fields
  (cartData : value CartEntry.t) (productsData : value Product.t)
  (c c' : console) (items : list CartItem.t)
  (Hrun : generateCartItemsFrom cartData productsData c = (c', Ok items)) :
  Forall
    (fun item =>
       exists (entries : list CartEntry.t) (catalog : list Product.t)
              (entry : CartEntry.t) (product : Product.t),
         cartData = Arr entries /\ productsData = Arr catalog
         /\ In entry entries /\ In product catalog
         /\ Product._id product = CartEntry.productId entry
         /\ item =
            {| CartItem.name := Product.name product;
               CartItem.qty := CartEntry.qty entry;
               CartItem.category := Product.category product;
               CartItem.cost := Product.cost product;
               CartItem.rating := Product.rating product;
               CartItem.image := Product.image product;
               CartItem.productId := Product._id product |})
    items.
Proof.
  destruct (catalog_cases productsData) as [Hno | (catalog & -> & Hne)].
  - rewrite generateCartItemsFrom_no_catalog in Hrun by assumption.
    injection Hrun as _ <-. constructor.
  - destruct (cartData_cases cartData) as [Hnot | (entries & ->)].
    + rewrite generateCartItemsFrom_not_array in Hrun by assumption.
      discriminate.
    + rewrite generateCartItemsFrom_arrays in Hrun by assumption.
      injection Hrun as _ <-.
      eapply Forall_impl; [| apply assemble_items_merge].
      intros item (entry & product & He & Hp & Hid & ->).
      exists entries, catalog, entry, product. auto 10.
Qed.

Lemma C5_generateCartItemsFrom_item_fields_witness :
  generateCartItemsFrom (Arr [entry_A]) (Arr [product_A]) [] = ([], Ok [item_A])
  /\ Forall
       (fun item =>
          exists (entries : list CartEntry.t) (catalog : list Product.t)
                 (entry : CartEntry.t) (product : Product.t),
            Arr [entry_A] = Arr entries /\ Arr [product_A] = Arr catalog
            /\ In entry entries /\ In product catalog
            /\ Product._id product = CartEntry.productId entry
            /\ item =
               {| CartItem.name := Product.name product;
                  CartItem.qty := CartEntry.qty entry;
                  CartItem.category := Product.category product;
                  CartItem.cost := Product.cost product;
                  CartItem.rating := Product.rating product;
                  CartItem.image := Product.image product;
                  CartItem.productId := Product._id product |})
       [item_A].
Proof.
  split.
  - reflexivity.
  - apply (@C5_generateCartItemsFrom_item_fields
             (Arr [entry_A]) (Arr [product_A]) [] [] [item_A]).
    reflexivity.
Defined.

(** C6. The items returned for an array of entries are, in the order of
    the entries, those of the entries that have a product in the catalog:
    read back as (product id, quantity) pairs, the output is the input with
    the unmatched entries removed, nothing swapped, repeated or lost. *)
Theorem C6_generateCartItemsFrom_order
  (entries : list CartEntry.t) (catalog : list Product.t) (c : console) :
  exists (c' : console) (items : list CartItem.t),
    generateCartItemsFrom (Arr entries) (Arr catalog) c = (c', Ok items)
    /\ map (fun item => (CartItem.productId item, CartItem.qty item)) items
       = map (fun entry => (CartEntry.productId entry, CartEntry.qty entry))
           (filter (has_match catalog) entries).
Proof.
  destruct catalog as [| product rest].
  - exists c, []. split.
    + apply generateCartItemsFrom_no_catalog. now left.
    + simpl. induction entries as [| entry more IH]; [reflexivity | exact IH].
  - exists (c ++ assemble_diagnostics entries (product :: rest)),
      (assemble_items entries (product :: rest)).
    split.
    + now apply generateCartItemsFrom_arrays.
    + apply assemble_items_order.
Qed.

(** C8. Two calls of [generateCartItemsFrom] on the same arguments give
    equal outcomes (the same items, field by field, or the same exception)
    and print the same diagnostics, whether the second call follows the
    first or starts from any other console. *)
Theorem C8_generateCartItemsFrom_deterministic
  (cartData : value CartEntry.t) (productsData : value Product.t) :
  (forall c1 c2 : console,
      snd (generateCartItemsFrom cartData productsData c1)
      = snd (generateCartItemsFrom cartData productsData c2))
  /\ (forall c : console,
        let first := generateCartItemsFrom cartData productsData c in
        let second := generateCartItemsFrom cartData productsData (fst first) in
        snd second = snd first
        /\ exists diagnostics : list string,
             fst first = c ++ diagnostics
             /\ fst second = fst first ++ diagnostics).
Proof.
  destruct (generateCartItemsFrom_run cartData productsData)
    as (diagnostics & outcome & Hrun).
  split.
  - intros c1 c2. now rewrite !Hrun.
  - intros c. cbv zeta. rewrite (Hrun c). simpl.
    rewrite (Hrun (c ++ diagnostics)). simpl.
    split; [reflexivity |]. exists diagnostics. auto.
Qed.

(** C10. When several catalog products carry the id an entry refers to,
    the entry is resolved to the first of them in catalog order, and it
    contributes exactly one line item, built from that product, between
    the items of the entries before it and those of the entries after
    it. *)
Theorem C10_generateCartItemsFrom_first_match
  (before after : list CartEntry.t) (entry : CartEntry.t)
  (earlier later : list Product.t) (product : Product.t) (c : console)
  (Hearlier : Forall (fun q => Product._id q <> CartEntry.productId entry) earlier)
  (Hproduct : Product._id product = CartEntry.productId entry) :
  let productsData := Arr (earlier ++ product :: later) in
  let item :=
    {| CartItem.name := Product.name product;
       CartItem.qty := CartEntry.qty entry;
       CartItem.category := Product.category product;
       CartItem.cost := Product.cost product;
       CartItem.rating := Product.rating product;
       CartItem.image := Product.image product;
       CartItem.productId := Product._id product |} in
  generateCartItemsFrom (Arr [entry]) productsData c = (c, Ok [item])
  /\ exists (c1 c2 : console) (items1 items2 : list CartItem.t),
       generateCartItemsFrom (Arr before) productsData c = (c1, Ok items1)
       /\ generateCartItemsFrom (Arr after) productsData c1 = (c2, Ok items2)
       /\ generateCartItemsFrom (Arr (before ++ entry :: after)) productsData c
          = (c2, Ok (items1 ++ item :: items2)).
Proof.
  intros productsData item. subst productsData.
  assert (Hne : earlier ++ product :: later <> []).
  { destruct earlier; discriminate. }
  pose proof (@lookup_first _ earlier later product Hearlier Hproduct) as Hlookup.
  split.
  - rewrite generateCartItemsFrom_arrays by assumption. simpl.
    rewrite Hlookup. now rewrite app_nil_r.
  - set (catalog := earlier ++ product :: later) in *.
    exists (c ++ assemble_diagnostics before catalog),
      ((c ++ assemble_diagnostics before catalog)
         ++ assemble_diagnostics after catalog),
      (assemble_items before catalog), (assemble_items after catalog).
    split; [now apply generateCartItemsFrom_arrays |].
    split; [now apply generateCartItemsFrom_arrays |].
    rewrite generateCartItemsFrom_arrays by assumption.
    rewrite assemble_items_app, assemble_diagnostics_app. simpl.
    rewrite Hlookup. now rewrite app_assoc.
Qed.

Lemma C10_generateCartItemsFrom_first_match_witness :
  generateCartItemsFrom (Arr [entry_A]) (Arr [product_A; product_A_again]) []
  = ([], Ok [item_A])
  /\ exists (c1 c2 : console) (items1 items2 : list CartItem.t),
       generateCartItemsFrom (Arr [entry_Z]) (Arr [product_A; product_A_again]) []
       = (c1, Ok items1)
       /\ generateCartItemsFrom (Arr [entry_A]) (Arr [product_A; product_A_again]) c1
          = (c2, Ok items2)
       /\ generateCartItemsFrom (Arr [entry_Z; entry_A; entry_A])
            (Arr [product_A; product_A_again]) []
          = (c2, Ok (items1 ++ item_A :: items2)).
Proof.
  apply (@C10_generateCartItemsFrom_first_match
           [entry_Z] [entry_A] entry_A [] [product_A_again] product_A []).
  - constructor.
  - reflexivity.
Defined.

(** ** The aggregators *)

Lemma getTotalItems_array (items : list CartItem.t) (c : console) :
  getTotalItems (Arr items) c = (c, Ok (sum_over CartItem.qty items)).
Proof.
  destruct items as [| item rest].
  - reflexivity.
  - unfold getTotalItems, getTotalItems_with, array_reduce, bind, ret; simpl.
    now rewrite <- (fold_left_sum CartItem.qty (item :: rest)).
Qed.

(** C3. [getTotalItems] returns the sum of [qty] over all items,
    accumulated in sequence order from 0; it returns 0 for the empty
    sequence and for [undefined], and it does so before any reduction:
    whatever the reduction primitive would do (fail included), the answer
    on a sequence of length zero is 0.  On the quantities 2, 3 it
    returns 5. *)
Theorem C3_getTotalItems_sum :
  (forall (items : list CartItem.t) (c : console),
      getTotalItems (Arr items) c = (c, Ok (sum_over CartItem.qty items)))
  /\ (forall (items : list CartItem.t) (item : CartItem.t),
        sum_over CartItem.qty (items ++ [item])
        = (sum_over CartItem.qty items + CartItem.qty item)%float)
  /\ (forall c : console, getTotalItems (Arr []) c = (c, Ok 0%float))
  /\ (forall c : console, getTotalItems Undefined c = (c, Ok 0%float))
  /\ (forall reduce (c : console),
        getTotalItems_with reduce (Arr []) c = (c, Ok 0%float)
        /\ getTotalItems_with reduce Undefined c = (c, Ok 0%float))
  /\ (forall c : console,
        getTotalItems (Arr [line 0 2; line 0 3]) c = (c, Ok 5%float)).
Proof.
  split; [exact getTotalItems_array |].
  split; [exact (sum_over_snoc CartItem.qty) |].
  split; [reflexivity |].
  split; [reflexivity |].
  split; [intros reduce c; split; reflexivity |].
  intros c. reflexivity.
Qed.

(** The claim C7 as it is written fails at [null]: a default parameter
    replaces [undefined] only, and [null] has neither [reduce] nor
    [length]. *)
Lemma C7_null_argument_throws :
  ~ (forall v : value CartItem.t,
        returns_number getTotalCartValue v /\ returns_number getTotalItems v).
Proof.
  intros H. destruct (H Null) as [[n Hn] _].
  specialize (Hn []). discriminate Hn.
Qed.

(** C7, amended. On every array of line items and on [undefined],
    [getTotalCartValue] and [getTotalItems] return a number: nothing is
    thrown, the console is left as it was, and the number does not depend
    on the console.  On [null] both throw a [TypeError]. *)
Theorem C7_totals_total_on_sequences (v : value CartItem.t)
  (Hv : v = Undefined \/ isArray v = true) :
  (returns_number getTotalCartValue v /\ returns_number getTotalItems v)
  /\ (forall c : console, getTotalCartValue Null c = (c, Throw TypeError))
  /\ (forall c : console, getTotalItems Null c = (c, Throw TypeError)).
Proof.
  split; [| split; reflexivity].
  assert (Hcases : v = Undefined \/ exists items, v = Arr items).
  { destruct Hv as [-> | Harr]; [now left |].
    destruct v; try discriminate. right. eexists. reflexivity. }
  destruct Hcases as [-> | [items ->]].
  - split; exists 0%float; reflexivity.
  - split.
    + exists (sum_over line_value items). intros c.
      apply getTotalCartValue_array.
    + exists (sum_over CartItem.qty items). intros c.
      apply getTotalItems_array.
Qed.

Lemma C7_totals_total_on_sequences_witness :
  (returns_number getTotalCartValue (Arr [line 5 3; line 2 1])
   /\ returns_number getTotalItems (Arr [line 5 3; line 2 1]))
  /\ (forall c : console, getTotalCartValue Null c = (c, Throw TypeError))
  /\ (forall c : console, getTotalItems Null c = (c, Throw TypeError)).
Proof.
  apply (@C7_totals_total_on_sequences (Arr [line 5 3; line 2 1])).
  right. reflexivity.
Defined.

(** * Further properties of the assembler and the aggregators *)

Lemma assemble_lengths (entries : list CartEntry.t) (catalog : list Product.t) :
  List.length (assemble_items entries catalog)
  + List.length (assemble_diagnostics entries catalog)
  = List.length entries.
Proof.
  induction entries as [| entry rest IH]; simpl.
  - reflexivity.
  - destruct (lookup (CartEntry.productId entry) catalog); simpl.
    + now rewrite IH.
    + rewrite <- plus_n_Sm. now rewrite IH.
Qed.

(** X1. Every entry of the cart is accounted for exactly once: with a non-empty
    catalog, the number of items returned plus the number of diagnostics
    printed by the call is the number of entries. *)
Theorem generateCartItemsFrom_accounts_for_every_entry
  (entries : list CartEntry.t) (catalog : list Product.t) (c : console)
  (Hcatalog : catalog <> []) :
  exists (diagnostics : list string) (items : list CartItem.t),
    generateCartItemsFrom (Arr entries) (Arr catalog) c
    = (c ++ diagnostics, Ok items)
    /\ List.length items + List.length diagnostics = List.length entries.
Proof.
  exists (assemble_diagnostics entries catalog), (assemble_items entries catalog).
  split.
  - now apply generateCartItemsFrom_arrays.
  - apply assemble_lengths.
Qed.

Lemma generateCartItemsFrom_accounts_for_every_entry_witness :
  exists (diagnostics : list string) (items : list CartItem.t),
    generateCartItemsFrom (Arr [entry_A; entry_Z; entry_A]) (Arr [product_A]) []
    = ([] ++ diagnostics, Ok items)
    /\ List.length items + List.length diagnostics = 3.
Proof.
  apply (@generateCartItemsFrom_accounts_for_every_entry
           [entry_A; entry_Z; entry_A] [product_A] []).
  discriminate.
Defined.

(** X2. Assembling a cart split in two parts is assembling the first part and
    then the second: the items are concatenated and the diagnostics follow
    one another, whatever the catalog argument is. *)
Theorem generateCartItemsFrom_concat
  (first second : list CartEntry.t) (productsData : value Product.t) (c : console) :
  exists (c1 c2 : console) (items1 items2 : list CartItem.t),
    generateCartItemsFrom (Arr first) productsData c = (c1, Ok items1)
    /\ generateCartItemsFrom (Arr second) productsData c1 = (c2, Ok items2)
    /\ generateCartItemsFrom (Arr (first ++ second)) productsData c
       = (c2, Ok (items1 ++ items2)).
Proof.
  destruct (catalog_cases productsData) as [Hno | (catalog & -> & Hne)].
  - exists c, c, [], [].
    repeat (split; [now apply generateCartItemsFrom_no_catalog |]).
    now apply generateCartItemsFrom_no_catalog.
  - exists (c ++ assemble_diagnostics first catalog),
      ((c ++ assemble_diagnostics first catalog)
         ++ assemble_diagnostics second catalog),
      (assemble_items first catalog), (assemble_items second catalog).
    repeat (split; [now apply generateCartItemsFrom_arrays |]).
    rewrite generateCartItemsFrom_arrays by assumption.
    rewrite assemble_items_app, assemble_diagnostics_app.
    now rewrite app_assoc.
Qed.

(** ** The catalog as a mapping from ids to products *)

Lemma assemble_lookup_ext (entries : list CartEntry.t) (catalog catalog' : list Product.t) :
  (forall id, lookup id catalog = lookup id catalog') ->
  assemble_items entries catalog = assemble_items entries catalog'
  /\ assemble_diagnostics entries catalog = assemble_diagnostics entries catalog'.
Proof.
  intros Hext.
  induction entries as [| entry rest [IHitems IHdiag]]; simpl.
  - auto.
  - rewrite <- Hext.
    destruct (lookup (CartEntry.productId entry) catalog); now rewrite IHitems, IHdiag.
Qed.

Lemma lookup_none_inv (id : string) (catalog : list Product.t) :
  lookup id catalog = None ->
  forall product, In product catalog -> Product._id product <> id.
Proof.
  induction catalog as [| q rest IH]; simpl; intros Hnone product Hin.
  - contradiction.
  - destruct (String.eqb (Product._id q) id) eqn:E; [discriminate |].
    destruct Hin as [<- | Hin].
    + now apply String.eqb_neq.
    + now apply IH.
Qed.

Lemma lookup_unique (catalog : list Product.t) (product : Product.t) :
  NoDup (map Product._id catalog) ->
  In product catalog ->
  lookup (Product._id product) catalog = Some product.
Proof.
  induction catalog as [| q rest IH]; simpl; intros Hnodup Hin.
  - contradiction.
  - inversion Hnodup as [| ? ? Hfresh Hrest]; subst.
    destruct Hin as [-> | Hin].
    + now rewrite String.eqb_refl.
    + destruct (String.eqb (Product._id q) (Product._id product)) eqn:E.
      * apply String.eqb_eq in E. exfalso. apply Hfresh. rewrite E.
        now apply in_map.
      * now apply IH.
Qed.

Lemma lookup_permutation (id : string) (catalog catalog' : list Product.t) :
  NoDup (map Product._id catalog) ->
  Permutation catalog catalog' ->
  lookup id catalog = lookup id catalog'.
Proof.
  intros Hnodup Hperm.
  assert (Hnodup' : NoDup (map Product._id catalog')).
  { eapply Permutation_NoDup; [| exact Hnodup]. now apply Permutation_map. }
  destruct (lookup id catalog) as [product |] eqn:E.
  - apply lookup_some in E. destruct E as [Hin <-].
    symmetry. apply lookup_unique; [assumption |].
    eapply Permutation_in; eassumption.
  - symmetry. apply lookup_none. intros product Hin.
    apply (@lookup_none_inv id catalog E).
    eapply Permutation_in; [apply Permutation_sym |]; eassumption.
Qed.

(** X3. When the ids of the catalog are pairwise distinct, the order of the
    catalog is irrelevant: on any reordering of it [generateCartItemsFrom]
    returns the same items (or throws the same error) and prints the same
    diagnostics. *)
Theorem generateCartItemsFrom_catalog_order_irrelevant
  (cartData : value CartEntry.t) (catalog catalog' : list Product.t) (c : console)
  (Hunique : NoDup (map Product._id catalog))
  (Hperm : Permutation catalog catalog') :
  generateCartItemsFrom cartData (Arr catalog) c
  = generateCartItemsFrom cartData (Arr catalog') c.
Proof.
  destruct catalog as [| product rest].
  - apply Permutation_nil in Hperm. now subst.
  - assert (Hne : product :: rest <> []) by discriminate.
    assert (Hne' : catalog' <> []).
    { intros ->. apply Permutation_sym, Permutation_nil in Hperm. discriminate. }
    destruct (cartData_cases cartData) as [Hnot | (entries & ->)].
    + now rewrite !generateCartItemsFrom_not_array.
    + rewrite !generateCartItemsFrom_arrays by assumption.
      destruct (@assemble_lookup_ext entries (product :: rest) catalog')
        as [-> ->]; [| reflexivity].
      intros id. now apply lookup_permutation.
Qed.

Lemma generateCartItemsFrom_catalog_order_irrelevant_witness :
  generateCartItemsFrom (Arr [entry_A; entry_Z; entry_B])
    (Arr [product_A; product_B]) []
  = generateCartItemsFrom (Arr [entry_A; entry_Z; entry_B])
      (Arr [product_B; product_A]) [].
Proof.
  apply generateCartItemsFrom_catalog_order_irrelevant.
  - repeat constructor; simpl; intuition discriminate.
  - apply perm_swap.
Defined.

Lemma lookup_app_found (id : string) (catalog more : list Product.t) (product : Product.t) :
  lookup id catalog = Some product ->
  lookup id (catalog ++ more) = Some product.
Proof.
  induction catalog as [| q rest IH]; simpl.
  - discriminate.
  - destruct (String.eqb (Product._id q) id); auto.
Qed.

Lemma assemble_all_matched (entries : list CartEntry.t) (catalog more : list Product.t) :
  forallb (has_match catalog) entries = true ->
  assemble_diagnostics entries catalog = []
  /\ assemble_items entries (catalog ++ more) = assemble_items entries catalog
  /\ assemble_diagnostics entries (catalog ++ more) = []
  /\ List.length (assemble_items entries catalog) = List.length entries.
Proof.
  induction entries as [| entry rest IH]; simpl.
  - auto.
  - rewrite has_match_lookup.
    destruct (lookup (CartEntry.productId entry) catalog) as [product |] eqn:E;
      simpl; [| discriminate].
    intros Hrest. destruct (IH Hrest) as (Hd & Hi & Hd' & Hlen).
    rewrite (@lookup_app_found _ catalog more product E). rewrite Hi, Hlen. auto.
Qed.

(** X4. A cart whose entries all refer to ids of the catalog is assembled
    completely and silently: one item per entry, nothing printed; and
    products appended to the end of the catalog (new ids or repeated ones)
    leave the result as it is. *)
Theorem generateCartItemsFrom_complete_cart
  (entries : list CartEntry.t) (catalog more : list Product.t) (c : console)
  (Hcatalog : catalog <> [])
  (Hmatched : forallb (has_match catalog) entries = true) :
  exists items : list CartItem.t,
    generateCartItemsFrom (Arr entries) (Arr catalog) c = (c, Ok items)
    /\ generateCartItemsFrom (Arr entries) (Arr (catalog ++ more)) c = (c, Ok items)
    /\ List.length items = List.length entries.
Proof.
  destruct (assemble_all_matched entries catalog more Hmatched)
    as (Hd & Hi & Hd' & Hlen).
  exists (assemble_items entries catalog).
  split; [| split].
  - rewrite generateCartItemsFrom_arrays by assumption.
    now rewrite Hd, app_nil_r.
  - rewrite generateCartItemsFrom_arrays
      by (destruct catalog; [congruence | discriminate]).
    now rewrite Hd', Hi, app_nil_r.
  - exact Hlen.
Qed.

Lemma generateCartItemsFrom_complete_cart_witness :
  exists items : list CartItem.t,
    generateCartItemsFrom (Arr [entry_A; entry_A]) (Arr [product_A]) []
    = ([], Ok items)
    /\ generateCartItemsFrom (Arr [entry_A; entry_A])
         (Arr ([product_A] ++ [product_A_again; product_B])) []
       = ([], Ok items)
    /\ List.length items = 2.
Proof.
  apply (@generateCartItemsFrom_complete_cart
           [entry_A; entry_A] [product_A] [product_A_again; product_B] []).
  - discriminate.
  - reflexivity.
Defined.

(** ** Totals of an assembled cart *)

Lemma fold_assembled_items (step : number -> CartItem.t -> number)
  (entries : list CartEntry.t) (catalog : list Product.t) :
  forall total : number,
    fold_left step (assemble_items entries catalog) total
    = fold_left
        (fun total entry =>
           match lookup (CartEntry.productId entry) catalog with
           | Some product => step total (cartItemData product entry)
           | None => total
           end)
        entries total.
Proof.
  induction entries as [| entry rest IH]; intros total; simpl.
  - reflexivity.
  - destruct (lookup (CartEntry.productId entry) catalog) as [product |]; simpl;
      apply IH.
Qed.

(** X5. The totals shown for an assembled cart can be read off the cart entries
    and the catalog in one pass: the value adds [cost * qty] and the count
    adds [qty] for each entry whose id is in the catalog, with the cost of
    the first product carrying that id, and entries with unknown ids add
    nothing. *)
Theorem totals_of_assembled_cart
  (entries : list CartEntry.t) (catalog : list Product.t) (c : console) :
  exists (c' : console) (items : list CartItem.t),
    generateCartItemsFrom (Arr entries) (Arr catalog) c = (c', Ok items)
    /\ getTotalCartValue (Arr items) c'
       = (c', Ok (fold_left
                    (fun total entry =>
                       match lookup (CartEntry.productId entry) catalog with
                       | Some product =>
                           (total + Product.cost product * CartEntry.qty entry)%float
                       | None => total
                       end)
                    entries 0%float))
    /\ getTotalItems (Arr items) c'
       = (c', Ok (fold_left
                    (fun total entry =>
                       match lookup (CartEntry.productId entry) catalog with
                       | Some _ => (total + CartEntry.qty entry)%float
                       | None => total
                       end)
                    entries 0%float)).
Proof.
  destruct catalog as [| product rest].
  - exists c, []. split; [apply generateCartItemsFrom_no_catalog; now left |].
    split.
    + unfold getTotalCartValue, array_reduce, ret; simpl.
      induction entries as [| entry more IH]; [reflexivity | exact IH].
    + change (getTotalItems (Arr []) c) with (c, @Ok number 0%float).
      induction entries as [| entry more IH]; [reflexivity | exact IH].
  - set (catalog := product :: rest).
    exists (c ++ assemble_diagnostics entries catalog), (assemble_items entries catalog).
    split; [now apply generateCartItemsFrom_arrays |].
    split.
    + rewrite getTotalCartValue_array, <- (fold_left_sum line_value).
      now rewrite (fold_assembled_items
                     (fun total item => (total + line_value item)%float)).
    + rewrite getTotalItems_array, <- (fold_left_sum CartItem.qty).
      now rewrite (fold_assembled_items
                     (fun total item => (total + CartItem.qty item)%float)).
Qed.

(** ** The aggregators on arguments that are not arrays *)

(** X6. On an argument that is neither an array nor [undefined],
    [getTotalCartValue] always throws, while [getTotalItems] throws or
    answers 0 and never anything else.  In particular [getTotalItems]
    answers 0 on every number, on every boolean and on the empty string,
    where [getTotalCartValue] throws, and it throws on every non-empty
    string. *)
Theorem totals_on_non_arrays (v : value CartItem.t) (c : console)
  (Hnot : isArray v = false) (Hdefined : v <> Undefined) :
  getTotalCartValue v c = (c, Throw TypeError)
  /\ (getTotalItems v c = (c, Ok 0%float) \/ getTotalItems v c = (c, Throw TypeError))
  /\ (forall x : number, getTotalItems (Number x) c = (c, Ok 0%float))
  /\ (forall b : bool, getTotalItems (Boolean b) c = (c, Ok 0%float))
  /\ (forall s : string,
        getTotalItems (Str s) c
        = (c, if String.eqb s "" then Ok 0%float else Throw TypeError)).
Proof.
  assert (Hstr : forall s : string,
             getTotalItems (@Str CartItem.t s) c
             = (c, if String.eqb s "" then Ok 0%float else Throw TypeError)).
  { intros s. unfold getTotalItems, getTotalItems_with, bind, ret; simpl.
    destruct (String.eqb s ""); reflexivity. }
  split; [| split; [| split; [reflexivity | split; [reflexivity | exact Hstr]]]].
  - destruct v; try reflexivity; [congruence | discriminate Hnot].
  - destruct v as [| | b | x | s | props | items]; try discriminate Hnot;
      try congruence; auto.
    + rewrite Hstr. destruct (String.eqb s ""); auto.
    + unfold getTotalItems, getTotalItems_with, bind, ret; simpl.
      destruct (own_property "length" props) as [w |]; simpl; [| now left].
      destruct (negb (truthy w)); auto.
Qed.

Lemma totals_on_non_arrays_witness :
  getTotalCartValue (Obj [("length"%string, Number 2)]) []
  = ([], Throw TypeError)
  /\ (getTotalItems (Obj [("length"%string, Number 2)]) [] = ([], Ok 0%float)
      \/ getTotalItems (Obj [("length"%string, Number 2)]) []
         = ([], Throw TypeError))
  /\ (forall x : number, getTotalItems (Number x) [] = ([], Ok 0%float))
  /\ (forall b : bool, getTotalItems (Boolean b) [] = ([], Ok 0%float))
  /\ (forall s : string,
        getTotalItems (Str s) []
        = ([], if String.eqb s "" then Ok 0%float else Throw TypeError)).
Proof.
  apply (@totals_on_non_arrays (Obj [("length"%string, Number 2)]) []).
  - reflexivity.
  - discriminate.
Defined.

(** * The cart view *)

Lemma mapM_ret {A B} (f : A -> B) (l : list A) (c : console) :
  mapM (fun x => ret (f x)) l c = (c, Ok (map f l)).
Proof.
  induction l as [| x rest IH]; simpl.
  - reflexivity.
  - unfold bind, ret in *. now rewrite IH.
Qed.

(** What the view of a non-empty array of items is. *)
Lemma Cart_nonempty (products : value Product.t) (items : list CartItem.t)
  (handleQuantity : quantity_handler) (hasCheckoutButton isReadOnly : bool)
  (c : console) :
  items <> [] ->
  exists (total details : node),
    Cart products (Arr items) handleQuantity hasCheckoutButton isReadOnly c
    = (c, Ok (Fragment
                [ Element "Box" None [("className", AStr "cart")]%string
                    [ NodeArray (map (Cart_row handleQuantity isReadOnly) items);
                      total;
                      if hasCheckoutButton then Cart_footer else BoolNode false ];
                  details ]))
    /\ node_handlers total = []
    /\ node_handlers details = [].
Proof.
  intros Hne. destruct items as [| item rest]; [congruence |].
  unfold Cart. simpl default_param.
  unfold bind at 1. simpl not_length. unfold ret at 1. simpl Nat.eqb. cbv iota.
  unfold array_map. unfold bind at 1. rewrite mapM_ret.
  unfold bind at 1. rewrite getTotalCartValue_array.
  destruct isReadOnly.
  - unfold bind. rewrite !getTotalItems_array, getTotalCartValue_array.
    unfold ret. eexists _, _. split; [reflexivity |]. split; reflexivity.
  - unfold bind, ret. eexists _, _. split; [reflexivity |]. split; reflexivity.
Qed.

Lemma Cart_rows_read_only (handleQuantity : quantity_handler) (items : list CartItem.t) :
  flat_map node_handlers (map (Cart_row handleQuantity true) items) = [].
Proof.
  induction items as [| item rest IH]; simpl; [reflexivity | exact IH].
Qed.

Lemma Cart_rows_editable (handleQuantity : quantity_handler) (items : list CartItem.t) :
  flat_map node_handlers (map (Cart_row handleQuantity false) items)
  = flat_map
      (fun item =>
         [ (fun w =>
              handleQuantity (getItem "token" (localStorage w)) ""%string ""%string
                (CartItem.productId item) (CartItem.qty item - 1)%float w);
           (fun w =>
              handleQuantity (getItem "token" (localStorage w)) ""%string ""%string
                (CartItem.productId item) (CartItem.qty item + 1)%float w) ])
      items.
Proof.
  induction items as [| item rest IH]; simpl; [reflexivity | now rewrite IH].
Qed.

(** X7. A read-only cart cannot change quantities.  The view of a non-empty
    array of items rendered with [isReadOnly] carries no event handler but
    the one of the Checkout button, present when [hasCheckoutButton] is
    set, which pushes "/checkout" on the history; [handleQuantity] is
    reachable from no element. *)
Theorem Cart_read_only_handlers (products : value Product.t)
  (items : list CartItem.t) (handleQuantity : quantity_handler)
  (hasCheckoutButton : bool) (c : console)
  (Hitems : items <> []) :
  exists tree : node,
    Cart products (Arr items) handleQuantity hasCheckoutButton true c = (c, Ok tree)
    /\ node_handlers tree
       = (if hasCheckoutButton then [history_push "/checkout"] else []).
Proof.
  destruct (@Cart_nonempty products items handleQuantity hasCheckoutButton true c Hitems)
    as (total & details & Hrun & Htotal & Hdetails).
  eexists. split; [exact Hrun |].
  simpl. rewrite Cart_rows_read_only, Htotal, Hdetails.
  destruct hasCheckoutButton; reflexivity.
Qed.

Lemma Cart_read_only_handlers_witness :
  exists tree : node,
    Cart Undefined (Arr [item_A]) (fun _ _ _ _ _ w => w) true true [] = ([], Ok tree)
    /\ node_handlers tree = [history_push "/checkout"].
Proof.
  apply (@Cart_read_only_handlers Undefined [item_A] (fun _ _ _ _ _ w => w) true []).
  discriminate.
Defined.

(** X8. An editable cart carries, for each item in order, the handler of its
    minus button and then the handler of its plus button, followed by the
    Checkout handler when [hasCheckoutButton] is set, and nothing else.  A
    click on minus (plus) calls [handleQuantity] once, with the token found
    in the local storage at the time of the click, two empty strings, the
    item's product id and its quantity minus (plus) one; no lower bound is
    applied to the quantity. *)
Theorem Cart_editable_handlers (products : value Product.t)
  (items : list CartItem.t) (handleQuantity : quantity_handler)
  (hasCheckoutButton : bool) (c : console)
  (Hitems : items <> []) :
  exists tree : node,
    Cart products (Arr items) handleQuantity hasCheckoutButton false c = (c, Ok tree)
    /\ node_handlers tree
       = flat_map
           (fun item =>
              [ (fun w =>
                   handleQuantity (getItem "token" (localStorage w)) ""%string ""%string
                     (CartItem.productId item) (CartItem.qty item - 1)%float w);
                (fun w =>
                   handleQuantity (getItem "token" (localStorage w)) ""%string ""%string
                     (CartItem.productId item) (CartItem.qty item + 1)%float w) ])
           items
         ++ (if hasCheckoutButton then [history_push "/checkout"] else []).
Proof.
  destruct (@Cart_nonempty products items handleQuantity hasCheckoutButton false c Hitems)
    as (total & details & Hrun & Htotal & Hdetails).
  eexists. split; [exact Hrun |].
  simpl. rewrite Cart_rows_editable, Htotal, Hdetails.
  destruct hasCheckoutButton; simpl; now rewrite ?app_nil_r.
Qed.

Lemma Cart_editable_handlers_witness :
  exists tree : node,
    Cart Undefined (Arr [item_A]) (fun _ _ _ _ _ w => w) true false [] = ([], Ok tree)
    /\ node_handlers tree
       = flat_map
           (fun item =>
              [ (fun w : world => w); (fun w : world => w) ])
           [item_A]
         ++ [history_push "/checkout"].
Proof.
  apply (@Cart_editable_handlers Undefined [item_A] (fun _ _ _ _ _ w => w) true []).
  discriminate.
Defined.

(** X9. Without a non-empty array of items the cart shows no row, no total and
    no Checkout button, whatever the flags are: it renders the empty-cart
    box, which carries no event handler, or it throws.  It renders the box
    for [undefined] and for the empty array, and throws for [null]. *)
Theorem Cart_without_items (products : value Product.t) (items : value CartItem.t)
  (handleQuantity : quantity_handler) (hasCheckoutButton isReadOnly : bool)
  (c : console)
  (Hitems : isArray items = false \/ items = Arr []) :
  (Cart products items handleQuantity hasCheckoutButton isReadOnly c
   = (c, Ok Cart_empty)
   \/ Cart products items handleQuantity hasCheckoutButton isReadOnly c
      = (c, Throw TypeError))
  /\ node_handlers Cart_empty = []
  /\ Cart products Undefined handleQuantity hasCheckoutButton isReadOnly c
     = (c, Ok Cart_empty)
  /\ Cart products (Arr []) handleQuantity hasCheckoutButton isReadOnly c
     = (c, Ok Cart_empty)
  /\ Cart products Null handleQuantity hasCheckoutButton isReadOnly c
     = (c, Throw TypeError).
Proof.
  split; [| repeat split].
  destruct Hitems as [Hnot | ->]; [| now left].
  destruct items as [| | b | x | s | props | elems]; try discriminate Hnot;
    try (now left); try (now right).
  - unfold Cart, bind, ret; simpl. destruct (String.eqb s ""); auto.
  - unfold Cart, bind, ret; simpl.
    destruct (own_property "length" props) as [w |]; simpl; [| now left].
    destruct (negb (truthy w)); auto.
Qed.

Lemma Cart_without_items_witness :
  (Cart Undefined (Str "cart") (fun _ _ _ _ _ w => w) true false []
   = ([], Ok Cart_empty)
   \/ Cart Undefined (Str "cart") (fun _ _ _ _ _ w => w) true false []
      = ([], Throw TypeError))
  /\ node_handlers Cart_empty = []
  /\ Cart Undefined Undefined (fun _ _ _ _ _ w => w) true false []
     = ([], Ok Cart_empty)
  /\ Cart Undefined (Arr []) (fun _ _ _ _ _ w => w) true false []
     = ([], Ok Cart_empty)
  /\ Cart Undefined Null (fun _ _ _ _ _ w => w) true false []
     = ([], Throw TypeError).
Proof.
  apply (@Cart_without_items Undefined (Str "cart") (fun _ _ _ _ _ w => w) true false []).
  left. reflexivity.
Defined.

Lemma length_flat_map_pairs {A B} (f g : A -> B) (l : list A) :
  List.length (flat_map (fun x => [f x; g x]) l) = 2 * List.length l.
Proof.
  induction l as [| x rest IH]; simpl; [reflexivity |].
  rewrite IH. simpl. now rewrite <- !plus_n_Sm, <- !plus_n_O.
Qed.

Lemma flat_map_assembled {B : Type} (F : string -> number -> list B)
  (entries : list CartEntry.t) (catalog : list Product.t) :
  flat_map (fun item => F (CartItem.productId item) (CartItem.qty item))
    (assemble_items entries catalog)
  = flat_map (fun entry => F (CartEntry.productId entry) (CartEntry.qty entry))
      (filter (has_match catalog) entries).
Proof.
  induction entries as [| entry rest IH]; simpl.
  - reflexivity.
  - rewrite has_match_lookup.
    destruct (lookup (CartEntry.productId entry) catalog) as [product |] eqn:E.
    + simpl. apply lookup_some in E. destruct E as [_ ->]. now rewrite IH.
    + exact IH.
Qed.

Lemma assemble_items_none_matched (entries : list CartEntry.t) (catalog : list Product.t) :
  filter (has_match catalog) entries = [] ->
  assemble_items entries catalog = [].
Proof.
  intros Hnone.
  pose proof (assemble_items_order entries catalog) as Horder.
  rewrite Hnone in Horder.
  destruct (assemble_items entries catalog); [reflexivity | discriminate].
Qed.

(** X10. From the cart entries to the buttons.  The editable view of an
    assembled cart carries, for each entry whose id is in the catalog and
    in the order of the entries, the minus handler and then the plus
    handler, which call [handleQuantity] with the token stored at the time
    of the click, two empty strings, the entry's product id and the
    entry's quantity minus (plus) one; then the Checkout handler when asked
    for; and nothing else, so entries with unknown ids get no button.  When
    no entry matches, the view is the empty-cart box, which has no handler
    at all. *)
Theorem Cart_of_assembled_cart (products : value Product.t)
  (entries : list CartEntry.t) (catalog : list Product.t)
  (handleQuantity : quantity_handler) (hasCheckoutButton : bool) (c : console) :
  exists (c' : console) (items : list CartItem.t) (tree : node),
    generateCartItemsFrom (Arr entries) (Arr catalog) c = (c', Ok items)
    /\ Cart products (Arr items) handleQuantity hasCheckoutButton false c'
       = (c', Ok tree)
    /\ match filter (has_match catalog) entries with
       | [] => tree = Cart_empty /\ node_handlers tree = []
       | matched =>
           node_handlers tree
           = flat_map
               (fun entry =>
                  [ (fun w =>
                       handleQuantity (getItem "token" (localStorage w))
                         ""%string ""%string
                         (CartEntry.productId entry) (CartEntry.qty entry - 1)%float w);
                    (fun w =>
                       handleQuantity (getItem "token" (localStorage w))
                         ""%string ""%string
                         (CartEntry.productId entry) (CartEntry.qty entry + 1)%float w) ])
               matched
             ++ (if hasCheckoutButton then [history_push "/checkout"] else [])
       end
    /\ List.length (node_handlers tree)
       = match filter (has_match catalog) entries with
         | [] => 0
         | matched =>
             2 * List.length matched + (if hasCheckoutButton then 1 else 0)
         end.
Proof.
  assert (Hrun : exists c',
             generateCartItemsFrom (Arr entries) (Arr catalog) c
             = (c', Ok (assemble_items entries catalog))).
  { destruct catalog as [| product rest].
    - exists c. rewrite generateCartItemsFrom_no_catalog by now left.
      f_equal. f_equal. symmetry. apply assemble_items_none_matched.
      induction entries as [| entry more IH]; [reflexivity | exact IH].
    - eexists. now apply generateCartItemsFrom_arrays. }
  destruct Hrun as [c' Hrun].
  exists c', (assemble_items entries catalog).
  pose proof (@flat_map_assembled (world -> world)
                (fun productId qty =>
                   [ (fun w =>
                        handleQuantity (getItem "token" (localStorage w))
                          ""%string ""%string productId (qty - 1)%float w);
                     (fun w =>
                        handleQuantity (getItem "token" (localStorage w))
                          ""%string ""%string productId (qty + 1)%float w) ])
                entries catalog) as Hhandlers.
  cbv beta in Hhandlers.
  destruct (filter (has_match catalog) entries) as [| entry more] eqn:Hmatched.
  - rewrite (assemble_items_none_matched entries catalog Hmatched) in Hrun |- *.
    exists Cart_empty. split; [exact Hrun |]. repeat split; reflexivity.
  - destruct (assemble_items entries catalog) as [| item rest] eqn:Hitems.
    { pose proof (assemble_items_order entries catalog) as Horder.
      rewrite Hitems, Hmatched in Horder. discriminate. }
    assert (Hne : item :: rest <> []) by discriminate.
    destruct (@Cart_nonempty products (item :: rest) handleQuantity
                hasCheckoutButton false c' Hne)
      as (total & details & Hcart & Htotal & Hdetails).
    eexists. split; [exact Hrun |]. split; [exact Hcart |].
    assert (Hlist :
      node_handlers
        (Fragment
           [Element "Box" None [("className"%string, AStr "cart")]
              [NodeArray (map (Cart_row handleQuantity false) (item :: rest));
               total;
               if hasCheckoutButton then Cart_footer else BoolNode false];
            details])
      = flat_map
          (fun entry =>
             [ (fun w =>
                  handleQuantity (getItem "token" (localStorage w))
                    ""%string ""%string
                    (CartEntry.productId entry) (CartEntry.qty entry - 1)%float w);
               (fun w =>
                  handleQuantity (getItem "token" (localStorage w))
                    ""%string ""%string
                    (CartEntry.productId entry) (CartEntry.qty entry + 1)%float w) ])
          (entry :: more)
        ++ (if hasCheckoutButton then [history_push "/checkout"] else [])).
    { cbn [node_handlers flat_map attr_handlers snd app].
      rewrite Cart_rows_editable, Htotal, Hdetails, Hhandlers.
      destruct hasCheckoutButton; simpl; now rewrite ?app_nil_r. }
    split; [exact Hlist |].
    rewrite Hlist, length_app, length_flat_map_pairs.
    destruct hasCheckoutButton; reflexivity.
Qed.

(** * The header *)

(** X11. What can be clicked in the header.  With [hasHiddenAuthButtons] the
    only handler is the one of "Back to explore", which pushes "/" on the
    history, and neither the children nor the local storage are looked at.
    Otherwise the children are rendered, followed by the Logout handler
    when the stored token is a non-empty string, and by the Login and
    Register handlers (pushing "/login" and "/register") when the token is
    missing or empty; never both groups. *)
Theorem Header_handlers (children : node) (hasHiddenAuthButtons : bool)
  (store : storage) :
  node_handlers (Header children hasHiddenAuthButtons store)
  = (if hasHiddenAuthButtons then [history_push "/"]
     else
       node_handlers children
       ++ (match getItem "token" store with
           | Some token =>
               if String.eqb token "" then
                 [history_push "/login"; history_push "/register"]
               else [logout]
           | None => [history_push "/login"; history_push "/register"]
           end))
  /\ Header children true store = Header NullNode true [].
Proof.
  split; [| reflexivity].
  destruct hasHiddenAuthButtons; [reflexivity |].
  unfold Header, truthy_item.
  destruct (getItem "token" store) as [token |];
    [destruct (String.eqb token "") |];
    simpl; rewrite ?app_nil_r; try reflexivity.
  destruct (getItem "username" store); reflexivity.
Qed.

(** X12. Logging out and coming back.  The Logout handler empties the local
    storage, whatever it held, and asks for one reload of the page; the
    header rendered from the storage it leaves is the header of an
    anonymous visitor: it offers Login and Register after the children, and
    no Logout. *)
Theorem Header_after_logout (children : node) (w : world) :
  localStorage (logout w) = []
  /\ calls (logout w) = calls w ++ [LocationReload "/"]
  /\ (forall key : string, getItem key (localStorage (logout w)) = None)
  /\ Header children false (localStorage (logout w)) = Header children false []
  /\ node_handlers (Header children false (localStorage (logout w)))
     = node_handlers children ++ [history_push "/login"; history_push "/register"].
Proof.
  split; [reflexivity |].
  split; [reflexivity |].
  split; [intros key; reflexivity |].
  split; [reflexivity |].
  change (localStorage (logout w)) with (@nil (string * string)).
  unfold Header. simpl. rewrite ?app_nil_r. reflexivity.
Qed.
